(** * convert_to_rgba.py: the icon conversion script, embedded and verified

    The script under [src-tauri/icons/convert_to_rgba.py] opens
    ['app_icon.png'], converts it to mode ['RGBA'] unless it already has that
    mode, saves it as ['app_icon_rgba.png'] in PNG format, re-opens the saved
    file and prints its mode and size.  Everything it does is an effect:
    library calls, file writes, prints and the exit status.  The embedding
    below therefore has three layers:

    - the data the script handles (Pillow images, files and the directory
      that names them, exceptions);
    - a small state-and-exception monad for Python's control flow, with the
      three Pillow calls the script makes written as operations of it;
    - the script itself, statement by statement, and the interpreter's
      mapping of how it ends to an exit status. *)

From Stdlib Require Import ZArith Bool List Lia.
From stdpp Require Import base option list strings gmap pretty.

Local Open Scope Z_scope.

(** ** Pillow images *)

(** The strings Pillow uses as [Image.mode]. *)
Inductive color_mode :=
  | M_1 | M_L | M_P | M_RGB | M_RGBA | M_CMYK | M_YCbCr | M_LAB | M_HSV
  | M_I | M_F | M_LA | M_PA | M_RGBX | M_RGBa | M_La | M_I16.

Definition mode_name (m : color_mode) : string :=
  match m with
  | M_1 => "1" | M_L => "L" | M_P => "P" | M_RGB => "RGB" | M_RGBA => "RGBA"
  | M_CMYK => "CMYK" | M_YCbCr => "YCbCr" | M_LAB => "LAB" | M_HSV => "HSV"
  | M_I => "I" | M_F => "F" | M_LA => "LA" | M_PA => "PA" | M_RGBX => "RGBX"
  | M_RGBa => "RGBa" | M_La => "La" | M_I16 => "I;16"
  end.

(** The modes whose last band is an alpha channel (straight or
    premultiplied). *)
Definition has_alpha (m : color_mode) : bool :=
  match m with
  | M_LA | M_La | M_PA | M_RGBA | M_RGBa => true
  | _ => false
  end.

(** [info['transparency']] as the decoders set it: an integer (a grey level
    or a palette index), a colour triple, or the bytes of a palette's alpha
    table.  The integers are stored as the file has them, so a key of a
    16-bit image can exceed 255. *)
Inductive transparency :=
  | KeyInt (k : Z)
  | KeyRGB (r g b : Z)
  | PaletteAlpha (alphas : list Z).

(** A decoded image: [Image_data] lists the pixels row by row, each pixel
    the list of its band values (what [getdata()] yields). *)
Record Image := {
  Image_mode : color_mode;
  Image_size : Z * Z;
  Image_data : list (list Z);
  Image_palette : list (Z * Z * Z);
  Image_transparency : option transparency
}.

(** Container formats [Image.open] recognises from a file's content. *)
Inductive format := PNG | JPEG | GIF | BMP | TIFF | WEBP | ICO.

(** What a path of the working directory holds: an image encoded in some
    container format, or bytes no decoder recognises. *)
Inductive file :=
  | ImageFile (fmt : format) (img : Image)
  | NotAnImage (content : string).

(** ** The working directory *)

(** A name refers to its file through an inode number, so that two names
    can refer to one file (a hard link, or a symbolic link and its target).
    A name whose inode holds no file is a link that dangles.  The directory
    holds regular files and links to them; permissions are not recorded:
    a call they make fail is one of the faults of the environment below. *)
Record directory := {
  names : gmap string nat;
  inodes : gmap nat file
}.

(** [dir !! path]: the file a path leads to. *)
#[global] Instance directory_lookup : Lookup string file directory :=
  fun path dir => names dir !! path ≫= fun i => inodes dir !! i.

Definition empty_directory : directory := {| names := ∅; inodes := ∅ |}.

(** An inode number no name and no file of the directory uses. *)
Definition fresh_inode (dir : directory) : nat :=
  S (max_list ((snd <$> map_to_list (names dir))
                 ++ (fst <$> map_to_list (inodes dir)))).

(** Opening [path] for writing and writing [f]: the file the name refers to
    is replaced (for all its names), or a file is created under the name. *)
Definition write (path : string) (f : file) (dir : directory) : directory :=
  match names dir !! path with
  | Some i => {| names := names dir; inodes := <[i := f]> (inodes dir) |}
  | None =>
      {| names := <[path := fresh_inode dir]> (names dir);
         inodes := <[fresh_inode dir := f]> (inodes dir) |}
  end.

(** Removing a name; the file stays for its other names. *)
Definition unlink (path : string) (dir : directory) : directory :=
  {| names := delete path (names dir); inodes := inodes dir |}.

(** Two names of one file. *)
Definition same_file (dir : directory) (p q : string) : Prop :=
  exists i, names dir !! p = Some i /\ names dir !! q = Some i.

(** ** Python exceptions *)

Inductive exn_class :=
  | ImportError | ModuleNotFoundError
  | OSError | FileNotFoundError | PermissionError
  | UnidentifiedImageError | ValueError | MemoryError.

(** An exception instance: its class and [str(e)]. *)
Record exn := { exn_cls : exn_class; exn_str : string }.

(** [isinstance(e, ImportError)]: [ModuleNotFoundError] derives from
    [ImportError].  Every class above derives from [Exception]. *)
Definition isinstance_ImportError (e : exn) : bool :=
  match exn_cls e with
  | ImportError | ModuleNotFoundError => true
  | _ => false
  end.

(** What unwinds the stack: a raised exception, or [SystemExit] with its
    code (which [except Exception] does not catch). *)
Inductive signal :=
  | Raise (e : exn)
  | SystemExit (code : Z).

(** ** The environment of a run *)

(** The library calls of the script, with their arguments. *)
Inductive call :=
  | Open (path : string)
  | Convert (self : Image) (m : color_mode)
  | Save (self : Image) (path : string) (fmt : format).

(** What a [save] that fails leaves at its path. *)
Inductive debris :=
  | Untouched
  | Removed
  | Partial (content : string).

(** The world a run starts in.  [fault] says which library calls the
    environment makes fail, and with what (a permission error on a
    read-only file or directory, a full disk, a truncated file, a
    conversion the build does not support, ...);
    [rgb_of] is the build's colour conversion to R, G, B for the modes where
    it is not a copy of bands, [other_conversion] what it converts to for
    targets other than RGBA. *)
Record World := {
  pil_installed : bool;
  cwd : directory;
  fault : call -> option exn;
  save_debris : debris;
  rgb_of : color_mode -> list Z -> Z * Z * Z;
  other_conversion : Image -> color_mode -> Image
}.

(** Standard output as the interpreter sets it up.  [attached] is false
    when the process was started with the descriptor closed ([sys.stdout] is
    [None] and [print] does nothing); [write_fault] says which lines [print]
    fails to write, and with what (an unbuffered stream on a full device, a
    line the encoding cannot represent); [flush_fault] says that the lines
    were buffered and that flushing them when the interpreter shuts down
    fails. *)
Record Console := {
  attached : bool;
  write_fault : string -> option exn;
  flush_fault : bool
}.

(** A standard output that takes every line. *)
Definition working : Console :=
  {| attached := true; write_fault := fun _ => None; flush_fault := false |}.

(** ** Control flow: state and exceptions *)

(** The state a run threads: the working directory, the lines [print] has
    handed to standard output, and the library calls made so far, each with
    whether it returned ([true]) or raised ([false]). *)
Record state := {
  fs : directory;
  stdout : list string;
  calls : list (call * bool)
}.

Definition M (A : Type) : Type := state -> (signal + A) * state.

Definition ret {A} (a : A) : M A := fun s => (inr a, s).

Definition bind {A B} (m : M A) (k : A -> M B) : M B :=
  fun s => match m s with
           | (inr a, s') => k a s'
           | (inl sg, s') => (inl sg, s')
           end.

Notation "x <- m ;; k" := (bind m (fun x => k))
  (at level 100, m at next level, right associativity).
Notation "m ;; k" := (bind m (fun _ => k))
  (at level 100, right associativity).

Definition raise {A} (e : exn) : M A := fun s => (inl (Raise e), s).

(** [try: body / except ...: handler]: the handler sees exceptions, not
    [SystemExit]. *)
Definition try_except {A} (body : M A) (handler : exn -> M A) : M A :=
  fun s => match body s with
           | (inl (Raise e), s') => handler e s'
           | r => r
           end.

(** [print(line)]: nothing without a standard output; otherwise the line is
    taken, or the write raises. *)
Definition print (c : Console) (line : string) : M unit :=
  fun s =>
    if attached c then
      match write_fault c line with
      | Some e => (inl (Raise e), s)
      | None => (inr tt, {| fs := fs s; stdout := stdout s ++ [line];
                            calls := calls s |})
      end
    else (inr tt, s).

Definition sys_exit {A} (code : Z) : M A := fun s => (inl (SystemExit code), s).

Definition record (c : call) (ok : bool) : M unit :=
  fun s => (inr tt, {| fs := fs s; stdout := stdout s;
                       calls := calls s ++ [(c, ok)] |}).

Definition get_fs : M directory := fun s => (inr (fs s), s).

Definition put_fs (dir : directory) : M unit :=
  fun s => (inr tt, {| fs := dir; stdout := stdout s; calls := calls s |}).

(** A library call: logged with how it ended, then its result returned or
    its exception raised. *)
Definition library_call {A} (c : call) (result : exn + A) : M A :=
  match result with
  | inl e => record c false ;; raise e
  | inr a => record c true ;; ret a
  end.

(** ** The three Pillow calls

    Pillow is a dependency of the script, not part of the repository.  The
    definitions of this section record what its calls do as far as the
    script can observe it: which image [open] returns, what [convert('RGBA')]
    does to mode, size and alpha, what [save] leaves on disk, and that any
    of them may raise. *)

(** The colour of a pixel as R, G, B: a copy of bands where the mode has
    them, the grey level three times, the palette entry, and the build's
    conversion for every other mode. *)
Definition rgb (w : World) (im : Image) (px : list Z) : Z * Z * Z :=
  match Image_mode im, px with
  | (M_RGB | M_RGBX | M_RGBA), r :: g :: b :: _ => (r, g, b)
  | (M_L | M_LA), l :: _ => (l, l, l)
  | M_1, v :: _ => if v =? 0 then (0, 0, 0) else (255, 255, 255)
  | (M_P | M_PA), i :: _ => default (0, 0, 0) (Image_palette im !! Z.to_nat i)
  | m, _ => rgb_of w m px
  end.

Definition low_byte (k : Z) : Z := Z.land k 255.

(** The colour that [convert] makes transparent in a 1, L, I, I;16 or RGB
    image with a transparency key: the low bytes of the key, a grey key
    three times, an integer given for an RGB image as its red. *)
Definition key_colour (m : color_mode) (t : transparency) : option (Z * Z * Z) :=
  match m, t with
  | M_RGB, KeyRGB r g b => Some (low_byte r, low_byte g, low_byte b)
  | M_RGB, KeyInt k => Some (low_byte k, 0, 0)
  | (M_1 | M_L | M_I | M_I16), KeyRGB r _ _ =>
      Some (low_byte r, low_byte r, low_byte r)
  | (M_1 | M_L | M_I | M_I16), KeyInt k =>
      Some (low_byte k, low_byte k, low_byte k)
  | _, _ => None
  end.

(** The alpha value a pixel carries before conversion, when it carries
    one: its alpha band; 0 when its converted colour is the key colour; the
    entry of its palette index in the alpha table, or 0 when its index is
    the transparent one. *)
Definition explicit_alpha (w : World) (im : Image) (px : list Z) : option Z :=
  if has_alpha (Image_mode im) then last px
  else
    match Image_transparency im with
    | None => None
    | Some t =>
        match key_colour (Image_mode im) t with
        | Some key => if bool_decide (rgb w im px = key) then Some 0 else None
        | None =>
            match Image_mode im, t, px with
            | M_P, PaletteAlpha alphas, i :: _ => alphas !! Z.to_nat i
            | M_P, KeyInt k, i :: _ => if i =? k then Some 0 else None
            | _, _, _ => None
            end
        end
    end.

Definition to_RGBA_pixel (w : World) (im : Image) (px : list Z) : list Z :=
  let '(r, g, b) := rgb w im px in
  [r; g; b; default 255 (explicit_alpha w im px)].

(** [convert('RGBA')] on the pixels: colour, then the alpha the pixel
    carried, or 255 when it carried none. *)
Definition to_RGBA (w : World) (im : Image) : Image :=
  {| Image_mode := M_RGBA;
     Image_size := Image_size im;
     Image_data := map (to_RGBA_pixel w im) (Image_data im);
     Image_palette := [];
     Image_transparency := None |}.

(** What [Image.open(path)] finds in a directory: the file must exist and
    hold an image some decoder identifies (by content, not by the name's
    extension). *)
Definition decode (w : World) (dir : directory) (path : string)
  : exn + Image :=
  match fault w (Open path) with
  | Some e => inl e
  | None =>
      match dir !! path with
      | None =>
          inl {| exn_cls := FileNotFoundError;
                 exn_str := "[Errno 2] No such file or directory: '"
                              +:+ path +:+ "'" |}
      | Some (NotAnImage _) =>
          inl {| exn_cls := UnidentifiedImageError;
                 exn_str := "cannot identify image file '" +:+ path +:+ "'" |}
      | Some (ImageFile _ im) => inr im
      end
  end.

(** [Image.open(path)] reads the directory and returns the decoded image or
    raises. *)
Definition Image_open (w : World) (path : string) : M Image :=
  dir <- get_fs ;;
  library_call (Open path) (decode w dir path).

(** [self.convert(m)] returns a new image.  The script asks for 'RGBA' only;
    what other targets give is the build's [other_conversion]. *)
Definition Image_convert (w : World) (self : Image) (m : color_mode) : M Image :=
  library_call (Convert self m)
    match fault w (Convert self m) with
    | Some e => inl e
    | None => inr match m with
                  | M_RGBA => to_RGBA w self
                  | _ => other_conversion w self m
                  end
    end.

(** The modes the PNG encoder writes. *)
Definition PNG_OUTMODES : list color_mode :=
  [M_1; M_L; M_LA; M_I; M_I16; M_P; M_RGB; M_RGBA].

Definition mode_eqb (a b : color_mode) : bool :=
  String.eqb (mode_name a) (mode_name b).

Definition format_name (fmt : format) : string :=
  match fmt with
  | PNG => "PNG" | JPEG => "JPEG" | GIF => "GIF" | BMP => "BMP"
  | TIFF => "TIFF" | WEBP => "WEBP" | ICO => "ICO"
  end.

(** Whether the encoder for [fmt] takes the image.  Only the PNG encoder's
    refusals are written out; those of the other encoders are among the
    environment's faults. *)
Definition encode (w : World) (self : Image) (path : string) (fmt : format)
  : exn + file :=
  match fault w (Save self path fmt) with
  | Some e => inl e
  | None =>
      match fmt with
      | PNG =>
          if existsb (mode_eqb (Image_mode self)) PNG_OUTMODES
          then inr (ImageFile PNG self)
          else inl {| exn_cls := OSError;
                      exn_str := "cannot write mode "
                                   +:+ mode_name (Image_mode self)
                                   +:+ " as " +:+ format_name fmt |}
      | _ => inr (ImageFile fmt self)
      end
  end.

(** The directory after a write to [path] that did not finish: as it was
    (the file could not be opened), without the name (a file created and
    removed again), or with what was written so far in the file. *)
Definition with_debris (w : World) (path : string) (dir : directory)
  : directory :=
  match save_debris w with
  | Untouched => dir
  | Removed => unlink path dir
  | Partial content => write path (NotAnImage content) dir
  end.

(** [self.save(path, fmt)] opens the path for writing, following a link
    that is there: on success the file holds the image encoded in [fmt]; on
    failure it holds what the failure left. *)
Definition Image_save (w : World) (self : Image) (path : string) (fmt : format)
  : M unit :=
  dir <- get_fs ;;
  match encode w self path fmt with
  | inl e =>
      put_fs (with_debris w path dir) ;;
      library_call (Save self path fmt) (inl e)
  | inr f =>
      put_fs (write path f dir) ;;
      library_call (Save self path fmt) (inr tt)
  end.

(** ** The script *)

Abbreviation src := "app_icon.png".
Abbreviation dst := "app_icon_rgba.png".

(** How Python formats the pair [test_img.size] in an f-string. *)
Definition show_size (sz : Z * Z) : string :=
  "(" +:+ pretty (fst sz) +:+ ", " +:+ pretty (snd sz) +:+ ")".

(** Line 3, [from PIL import Image], stands before the [try]. *)
Definition import_PIL (w : World) : M unit :=
  if pil_installed w then ret tt
  else raise {| exn_cls := ModuleNotFoundError;
                exn_str := "No module named 'PIL'" |}.

(** Lines 6 to 21, the body of the [try]. *)
Definition try_body (c : Console) (w : World) : M unit :=
  img <- Image_open w "app_icon.png" ;;
  img <- (if negb (String.eqb (mode_name (Image_mode img)) "RGBA")
          then Image_convert w img M_RGBA
          else ret img) ;;
  Image_save w img "app_icon_rgba.png" PNG ;;
  print c "Successfully converted to RGBA format" ;;
  test_img <- Image_open w "app_icon_rgba.png" ;;
  print c ("New image mode: " +:+ mode_name (Image_mode test_img)) ;;
  print c ("New image size: " +:+ show_size (Image_size test_img)).

(** Lines 23 to 28, the two handlers, tried in order.  An exception raised
    in a handler is not caught again. *)
Definition handlers (c : Console) (e : exn) : M unit :=
  if isinstance_ImportError e then
    print c "PIL not available - please install Pillow: pip install Pillow" ;;
    sys_exit 1
  else
    print c ("Error: " +:+ exn_str e) ;;
    sys_exit 1.

Definition convert_to_rgba (c : Console) (w : World) : M unit :=
  import_PIL w ;;
  try_except (try_body c w) (handlers c).

(** ** Running the script as a process *)

(** What a run leaves behind: the exit status, the exception the interpreter
    reports on standard error when none of the handlers took it, and the
    final state. *)
Record outcome := {
  exit_status : Z;
  uncaught : option exn;
  final : state
}.

Definition initial (w : World) : state :=
  {| fs := cwd w; stdout := []; calls := [] |}.

(** Whether lines wait in the buffer of standard output. *)
Definition pending (s : state) : bool :=
  match stdout s with [] => false | _ => true end.

(** Falling off the end of the script exits with 0, [sys.exit(c)] with [c],
    an exception nobody caught with 1; and whichever it was, with 120 when
    the interpreter cannot flush standard output on its way out. *)
Definition process_end (c : Console) (r : (signal + unit) * state) : outcome :=
  {| exit_status := if flush_fault c && pending (snd r) then 120
                    else match fst r with
                         | inr _ => 0
                         | inl (SystemExit code) => code
                         | inl (Raise _) => 1
                         end;
     uncaught := match fst r with inl (Raise e) => Some e | _ => None end;
     final := snd r |}.

(** A run of the script under a given standard output. *)
Definition run_in (c : Console) (w : World) : outcome :=
  process_end c (convert_to_rgba c w (initial w)).

(** A run whose standard output takes every line. *)
Definition run (w : World) : outcome := run_in working w.

(** ** How a run can end *)

(** The line a handler prints for the exception it took. *)
Definition report (e : exn) : string :=
  if isinstance_ImportError e
  then "PIL not available - please install Pillow: pip install Pillow"
  else "Error: " +:+ exn_str e.

(** The test of line 11, negated. *)
Definition is_RGBA (img : Image) : bool :=
  String.eqb (mode_name (Image_mode img)) "RGBA".

(** The image line 15 saves, when lines 11 and 12 did not fail. *)
Definition prepared (w : World) (img : Image) : Image :=
  if is_RGBA img then img else to_RGBA w img.

(** The calls made, all returned, when line 15 is reached. *)
Definition calls_before_save (img : Image) : list (call * bool) :=
  (Open src, true) ::
  (if is_RGBA img then [] else [(Convert img M_RGBA, true)]).

(** A run that a handler ended. *)
Definition handled (e : exn) (dir : directory) (printed : list string)
    (log : list (call * bool)) : outcome :=
  {| exit_status := 1;
     uncaught := None;
     final := {| fs := dir; stdout := printed ++ [report e]; calls := log |} |}.

Definition success_line : string := "Successfully converted to RGBA format".

(** The six ways through the script when standard output takes every line,
    each with the outcome it gives. *)
Inductive ending (w : World) : outcome -> Prop :=
  | end_import :
      pil_installed w = false ->
      ending w {| exit_status := 1;
                  uncaught := Some {| exn_cls := ModuleNotFoundError;
                                      exn_str := "No module named 'PIL'" |};
                  final := initial w |}
  | end_open e :
      pil_installed w = true ->
      decode w (cwd w) src = inl e ->
      ending w (handled e (cwd w) [] [(Open src, false)])
  | end_convert img e :
      pil_installed w = true ->
      decode w (cwd w) src = inr img ->
      is_RGBA img = false ->
      fault w (Convert img M_RGBA) = Some e ->
      ending w (handled e (cwd w) []
                  [(Open src, true); (Convert img M_RGBA, false)])
  | end_save img e :
      pil_installed w = true ->
      decode w (cwd w) src = inr img ->
      (is_RGBA img = false -> fault w (Convert img M_RGBA) = None) ->
      fault w (Save (prepared w img) dst PNG) = Some e ->
      ending w (handled e (with_debris w dst (cwd w)) []
                  (calls_before_save img
                     ++ [(Save (prepared w img) dst PNG, false)]))
  | end_reopen img e :
      pil_installed w = true ->
      decode w (cwd w) src = inr img ->
      (is_RGBA img = false -> fault w (Convert img M_RGBA) = None) ->
      fault w (Save (prepared w img) dst PNG) = None ->
      fault w (Open dst) = Some e ->
      ending w (handled e (write dst (ImageFile PNG (prepared w img)) (cwd w))
                  [success_line]
                  (calls_before_save img
                     ++ [(Save (prepared w img) dst PNG, true);
                         (Open dst, false)]))
  | end_done img :
      pil_installed w = true ->
      decode w (cwd w) src = inr img ->
      (is_RGBA img = false -> fault w (Convert img M_RGBA) = None) ->
      fault w (Save (prepared w img) dst PNG) = None ->
      fault w (Open dst) = None ->
      ending w
        {| exit_status := 0;
           uncaught := None;
           final :=
             {| fs := write dst (ImageFile PNG (prepared w img)) (cwd w);
                stdout := [success_line;
                           "New image mode: RGBA";
                           "New image size: "
                             +:+ show_size (Image_size img)];
                calls := calls_before_save img
                           ++ [(Save (prepared w img) dst PNG, true);
                               (Open dst, true)] |} |}.

(** ** Vocabulary of the properties *)

(** A standard output that is there and takes every line. *)
Definition accepts_all (c : Console) : Prop :=
  attached c = true /\ forall line, write_fault c line = None.

(** No call to [convert] appears in the log of a run. *)
Definition conversion_skipped (o : outcome) : bool :=
  forallb (fun c => match fst c with Convert _ _ => false | _ => true end)
          (calls (final o)).

(** Whether a call writes to some path other than [path]. *)
Definition writes_elsewhere (path : string) (c : call * bool) : bool :=
  match fst c with
  | Save _ p _ => negb (String.eqb p path)
  | _ => false
  end.

(** The container format of a file, when it is an image. *)
Definition container (f : file) : option format :=
  match f with
  | ImageFile fmt _ => Some fmt
  | NotAnImage _ => None
  end.

(** Nothing on the way from line 3 to line 21 fails: the library is there,
    the source decodes, and the environment lets every call return. *)
Definition no_failure (w : World) : Prop :=
  pil_installed w = true /\
  exists img,
    decode w (cwd w) src = inr img /\
    (Image_mode img <> M_RGBA -> fault w (Convert img M_RGBA) = None) /\
    fault w (Save (prepared w img) dst PNG) = None /\
    fault w (Open dst) = None.

(** ** Sample worlds *)

Definition no_fault : call -> option exn := fun _ => None.

(** A world with Pillow installed, no fault, and one file at the source
    path. *)
Definition world_with (f : file) : World :=
  {| pil_installed := true;
     cwd := write src f empty_directory;
     fault := no_fault;
     save_debris := Untouched;
     rgb_of := fun _ _ => (0, 0, 0);
     other_conversion := fun img _ => img |}.

Definition plain (m : color_mode) (sz : Z * Z) (data : list (list Z)) : Image :=
  {| Image_mode := m; Image_size := sz; Image_data := data;
     Image_palette := []; Image_transparency := None |}.

Definition icon_rgb : Image := plain M_RGB (2, 1) [[10; 20; 30]; [40; 50; 60]].
Definition icon_rgba : Image :=
  plain M_RGBA (2, 1) [[10; 20; 30; 0]; [40; 50; 60; 200]].
Definition icon_la : Image := plain M_LA (1, 1) [[10; 128]].


Definition w_rgb : World := world_with (ImageFile PNG icon_rgb).
Definition w_rgba : World := world_with (ImageFile PNG icon_rgba).
Definition w_la : World := world_with (ImageFile PNG icon_la).
Definition w_jpeg : World := world_with (ImageFile JPEG icon_rgb).

Definition w_no_pil : World :=
  {| pil_installed := false;
     cwd := cwd w_rgb;
     fault := no_fault;
     save_debris := Untouched;
     rgb_of := rgb_of w_rgb;
     other_conversion := other_conversion w_rgb |}.

Definition w_missing : World :=
  {| pil_installed := true;
     cwd := write "README.md" (NotAnImage "icons") empty_directory;
     fault := no_fault;
     save_debris := Untouched;
     rgb_of := rgb_of w_rgb;
     other_conversion := other_conversion w_rgb |}.

(** The source is fine and the save goes through, but reading the saved file
    back fails. *)
Definition w_reopen_fails : World :=
  {| pil_installed := true;
     cwd := cwd w_rgb;
     fault := fun c =>
       match c with
       | Open p =>
           if String.eqb p dst
           then Some {| exn_cls := OSError;
                        exn_str := "[Errno 5] Input/output error" |}
           else None
       | _ => None
       end;
     save_debris := Untouched;
     rgb_of := rgb_of w_rgb;
     other_conversion := other_conversion w_rgb |}.

(** A standard output whose lines are buffered and cannot be flushed: a
    pipe or file on a full device. *)
Definition unflushable : Console :=
  {| attached := true; write_fault := fun _ => None; flush_fault := true |}.

(** An unbuffered standard output that refuses every write. *)
Definition unwritable : Console :=
  {| attached := true;
     write_fault := fun _ =>
       Some {| exn_cls := OSError;
               exn_str := "[Errno 28] No space left on device" |};
     flush_fault := false |}.

(** 'app_icon_rgba.png' is a link to 'app_icon.png': two names, one file. *)
Definition w_linked : World :=
  {| pil_installed := true;
     cwd := {| names := <[dst := 1%nat]> {[ src := 1%nat ]};
               inodes := {[ 1%nat := ImageFile PNG icon_rgb ]} |};
     fault := no_fault;
     save_debris := Untouched;
     rgb_of := rgb_of w_rgb;
     other_conversion := other_conversion w_rgb |}.

(** ** Vocabulary of the further properties *)

(** The line of the first handler (line 24). *)
Definition guidance_line : string :=
  "PIL not available - please install Pillow: pip install Pillow".

Definition is_save (c : call * bool) : bool :=
  match fst c with Save _ _ _ => true | _ => false end.

(** The calls the script can make: open of one of its two paths,
    [convert('RGBA')], [save] to the destination as PNG. *)
Definition scripted_call (c : call * bool) : bool :=
  match fst c with
  | Open p => String.eqb p src || String.eqb p dst
  | Convert _ m => mode_eqb m M_RGBA
  | Save _ p fmt => String.eqb p dst && String.eqb (format_name fmt) "PNG"
  end.

(** The source path holds something that is not an image. *)
Definition w_not_image : World := world_with (NotAnImage "not a picture").

(** The first open raises an [ImportError] from inside the library. *)
Definition w_import_fault : World :=
  {| pil_installed := true;
     cwd := cwd w_rgb;
     fault := fun c =>
       match c with
       | Open _ => Some {| exn_cls := ImportError;
                           exn_str := "cannot import name '_imaging'" |}
       | _ => None
       end;
     save_debris := Untouched;
     rgb_of := rgb_of w_rgb;
     other_conversion := other_conversion w_rgb |}.

(** ** Basic facts *)

Lemma mode_name_RGBA (m : color_mode) :
  String.eqb (mode_name m) "RGBA" = true <-> m = M_RGBA.
Proof. destruct m; cbn; split; congruence. Qed.

Lemma is_RGBA_true (img : Image) : is_RGBA img = true <-> Image_mode img = M_RGBA.
Proof. apply mode_name_RGBA. Qed.

Lemma is_RGBA_false (img : Image) :
  is_RGBA img = false <-> Image_mode img <> M_RGBA.
Proof.
  rewrite <- is_RGBA_true. destruct (is_RGBA img); split; congruence.
Qed.

Lemma prepared_mode (w : World) (img : Image) :
  Image_mode (prepared w img) = M_RGBA.
Proof.
  unfold prepared. destruct (is_RGBA img) eqn:E; [by apply is_RGBA_true | done].
Qed.

Lemma prepared_size (w : World) (img : Image) :
  Image_size (prepared w img) = Image_size img.
Proof. unfold prepared. by destruct (is_RGBA img). Qed.

(** The PNG encoder never refuses what line 15 hands it. *)
Lemma encode_prepared (w : World) (img : Image) :
  encode w (prepared w img) dst PNG =
    match fault w (Save (prepared w img) dst PNG) with
    | Some e => inl e
    | None => inr (ImageFile PNG (prepared w img))
    end.
Proof.
  unfold encode. rewrite prepared_mode.
  by destruct (fault w _).
Qed.

(** *** The directory *)

Lemma directory_lookup_unfold (dir : directory) (path : string) :
  dir !! path = names dir !! path ≫= fun i => inodes dir !! i.
Proof. reflexivity. Qed.

Lemma lookup_write_eq (dir : directory) (path : string) (f : file) :
  write path f dir !! path = Some f.
Proof.
  rewrite directory_lookup_unfold. unfold write.
  destruct (names dir !! path) as [i|] eqn:Hi; cbn [names inodes].
  - rewrite Hi. apply lookup_insert_eq.
  - rewrite lookup_insert_eq. apply lookup_insert_eq.
Qed.

(** The inode of a name is below the fresh one. *)
Lemma fresh_inode_above_names (dir : directory) (path : string) (i : nat) :
  names dir !! path = Some i -> (i < fresh_inode dir)%nat.
Proof.
  intros Hi. unfold fresh_inode. apply Nat.lt_succ_r, max_list_elem_of_le.
  apply elem_of_app. left. apply list_elem_of_fmap.
  exists (path, i). split; [done |]. by apply elem_of_map_to_list.
Qed.

(** A name that neither is [path] nor shares its file is not affected by a
    write to [path]. *)
Lemma lookup_write_other (dir : directory) (path q : string) (f : file) :
  q <> path -> ~ same_file dir path q ->
  write path f dir !! q = dir !! q.
Proof.
  intros Hne Hshare. rewrite !directory_lookup_unfold. unfold write.
  destruct (names dir !! path) as [i|] eqn:Hi; cbn [names inodes].
  - destruct (names dir !! q) as [k|] eqn:Hk; [| done].
    apply lookup_insert_ne. intros ->. apply Hshare. by exists k.
  - rewrite lookup_insert_ne by done.
    destruct (names dir !! q) as [k|] eqn:Hk; [| done].
    apply lookup_insert_ne. intros <-.
    pose proof (fresh_inode_above_names dir q _ Hk). lia.
Qed.

Lemma lookup_unlink_other (dir : directory) (path q : string) :
  q <> path -> unlink path dir !! q = dir !! q.
Proof.
  intros Hne. rewrite !directory_lookup_unfold. unfold unlink.
  cbn [names inodes]. by rewrite lookup_delete_ne.
Qed.

(** *** Standard output *)

Lemma working_accepts_all : accepts_all working.
Proof. by split. Qed.

Lemma print_taken (c : Console) (line : string) (s : state) :
  accepts_all c ->
  print c line s =
    (inr tt, {| fs := fs s; stdout := stdout s ++ [line]; calls := calls s |}).
Proof. intros [Hatt Hw]. unfold print. by rewrite Hatt, Hw. Qed.

Lemma handlers_run (c : Console) (e : exn) (s : state) :
  accepts_all c ->
  handlers c e s =
    (inl (SystemExit 1),
     {| fs := fs s; stdout := stdout s ++ [report e]; calls := calls s |}).
Proof.
  intros Hc. unfold handlers, report, bind.
  destruct (isinstance_ImportError e); by rewrite print_taken.
Qed.

(** *** The script under a standard output that takes every line *)

(** Re-opening a path just saved to decodes what was saved, unless the
    environment makes the call fail. *)
Lemma decode_saved (w : World) (dir : directory) (path : string)
    (fmt : format) (img : Image) :
  decode w (write path (ImageFile fmt img) dir) path =
    match fault w (Open path) with Some e => inl e | None => inr img end.
Proof. unfold decode. by rewrite lookup_write_eq. Qed.

(** Lines 15 to 21, from the state lines 8 to 12 leave. *)
Lemma save_and_verify_ending (c : Console) (w : World) (img : Image) :
  accepts_all c ->
  pil_installed w = true ->
  decode w (cwd w) src = inr img ->
  (is_RGBA img = false -> fault w (Convert img M_RGBA) = None) ->
  ending w
    (process_end working
       (try_except
          (Image_save w (prepared w img) dst PNG ;;
           print c "Successfully converted to RGBA format" ;;
           test_img <- Image_open w dst ;;
           print c ("New image mode: " +:+ mode_name (Image_mode test_img)) ;;
           print c ("New image size: " +:+ show_size (Image_size test_img)))
          (handlers c)
          {| fs := cwd w; stdout := []; calls := calls_before_save img |})).
Proof.
  intros Hc Hpil Hopen Hconv.
  cbv [try_except bind Image_save get_fs put_fs library_call record raise ret
       Image_open].
  rewrite encode_prepared. cbn [fs stdout calls].
  destruct (fault w (Save (prepared w img) dst PNG)) as [e|] eqn:Hsave.
  { rewrite handlers_run by done. by apply end_save. }
  cbn [fs stdout calls]. rewrite print_taken by done.
  cbn [fs stdout calls]. rewrite decode_saved.
  destruct (fault w (Open dst)) as [e|] eqn:Hre.
  { rewrite handlers_run by done. cbn. rewrite <- app_assoc.
    by apply end_reopen. }
  rewrite !print_taken by done.
  cbn. rewrite prepared_mode, prepared_size, <- app_assoc.
  by apply end_done.
Qed.

(** Under a standard output that takes every line the script ends in one of
    the six ways, up to the exit status a failing flush changes. *)
Lemma accepted_run_ending (c : Console) (w : World) :
  accepts_all c ->
  ending w (process_end working (convert_to_rgba c w (initial w))).
Proof.
  intros Hc. unfold convert_to_rgba, import_PIL.
  destruct (pil_installed w) eqn:Hpil; [| by apply end_import].
  cbv [bind ret try_except try_body Image_open get_fs library_call record
       raise initial fs stdout calls].
  destruct (decode w (cwd w) src) as [e|img] eqn:Hopen.
  { rewrite handlers_run by done. by apply end_open. }
  fold (is_RGBA img).
  destruct (is_RGBA img) eqn:Hmode; cbn [negb].
  - pose proof (save_and_verify_ending c w img Hc Hpil Hopen) as H.
    unfold prepared, calls_before_save in H. rewrite Hmode in H.
    apply H. congruence.
  - cbv [Image_convert library_call record raise ret bind].
    destruct (fault w (Convert img M_RGBA)) as [e|] eqn:Hconv.
    { rewrite handlers_run by done. by apply end_convert. }
    pose proof (save_and_verify_ending c w img Hc Hpil Hopen) as H.
    unfold prepared, calls_before_save in H. rewrite Hmode in H.
    apply H. congruence.
Qed.

Lemma run_ending (w : World) : ending w (run w).
Proof. apply (accepted_run_ending working w), working_accepts_all. Qed.

(** A world has one ending. *)
Lemma ending_unique (w : World) (o1 o2 : outcome) :
  ending w o1 -> ending w o2 -> o1 = o2.
Proof.
  intros H1 H2.
  destruct H1 as
    [Hpil|e Hpil Hopen|img e Hpil Hopen Hmode Hconv
    |img e Hpil Hopen Hconv Hsave|img e Hpil Hopen Hconv Hsave Hre
    |img Hpil Hopen Hconv Hsave Hre];
  destruct H2 as
    [Hpil'|e' Hpil' Hopen'|img' e' Hpil' Hopen' Hmode' Hconv'
    |img' e' Hpil' Hopen' Hconv' Hsave'|img' e' Hpil' Hopen' Hconv' Hsave' Hre'
    |img' Hpil' Hopen' Hconv' Hsave' Hre'];
    try congruence;
    try (assert (img' = img) as -> by congruence);
    try (specialize (Hconv Hmode'));
    try (specialize (Hconv' Hmode));
    congruence.
Qed.

(** ** What each operation does to the files *)

Lemma library_call_keeps_files {A} (c : call) (r : exn + A) (s : state) :
  fs (snd (library_call c r s)) = fs s.
Proof. by destruct r. Qed.

Lemma Image_open_keeps_files (w : World) (path : string) (s : state) :
  fs (snd (Image_open w path s)) = fs s.
Proof. apply library_call_keeps_files. Qed.

Lemma Image_convert_keeps_files (w : World) (self : Image) (m : color_mode)
    (s : state) :
  fs (snd (Image_convert w self m s)) = fs s.
Proof. apply library_call_keeps_files. Qed.

Lemma print_keeps_files (c : Console) (line : string) (s : state) :
  fs (snd (print c line s)) = fs s.
Proof.
  unfold print. destruct (attached c); [| done].
  by destruct (write_fault c line).
Qed.

Lemma with_debris_other (w : World) (dir : directory) (path q : string) :
  q <> path -> ~ same_file dir path q ->
  with_debris w path dir !! q = dir !! q.
Proof.
  intros Hne Hshare. unfold with_debris. destruct (save_debris w).
  - done.
  - by apply lookup_unlink_other.
  - by apply lookup_write_other.
Qed.

(** [save] changes the file its path names at most: every other name that
    does not share that file reads as before. *)
Lemma Image_save_writes_its_path (w : World) (self : Image) (path q : string)
    (fmt : format) (s : state) :
  q <> path -> ~ same_file (fs s) path q ->
  fs (snd (Image_save w self path fmt s)) !! q = fs s !! q.
Proof.
  intros Hne Hshare. unfold Image_save, bind, get_fs, put_fs. cbn.
  destruct (encode w self path fmt); cbn.
  - by apply with_debris_other.
  - by apply lookup_write_other.
Qed.

(** ** The run as a whole *)

(** An opaque 2x1 RGB icon: three calls and the save, three lines printed,
    both pixels given alpha 255. *)
Example run_on_rgb_icon :
  exit_status (run w_rgb) = 0 /\
  stdout (final (run w_rgb)) =
    ["Successfully converted to RGBA format";
     "New image mode: RGBA";
     "New image size: (2, 1)"] /\
  fs (final (run w_rgb)) !! dst =
    Some (ImageFile PNG
            (plain M_RGBA (2, 1) [[10; 20; 30; 255]; [40; 50; 60; 255]])).
Proof. repeat split; vm_compute; reflexivity. Qed.

(** C1: when a run exits with status 0, the destination path holds a PNG
    whose mode is 'RGBA', a mode with an alpha channel. *)
Theorem saved_image_has_alpha (w : World) :
  exit_status (run w) = 0 ->
  exists img,
    fs (final (run w)) !! dst = Some (ImageFile PNG img) /\
    Image_mode img = M_RGBA /\
    has_alpha (Image_mode img) = true.
Proof.
  destruct (run_ending w); cbn; try discriminate.
  intros _. exists (prepared w img).
  rewrite lookup_write_eq, prepared_mode. done.
Qed.

Lemma saved_image_has_alpha_witness :
  exit_status (run w_rgb) = 0 /\
  exists img,
    fs (final (run w_rgb)) !! dst = Some (ImageFile PNG img) /\
    Image_mode img = M_RGBA /\
    has_alpha (Image_mode img) = true.
Proof.
  split; [vm_compute; reflexivity |].
  apply (saved_image_has_alpha w_rgb). vm_compute. reflexivity.
Defined.

(** C2: when Pillow is not installed, the import of line 3 raises outside
    the [try]: no handler runs, nothing is printed to standard output (the
    install guidance included), the interpreter reports the exception and
    the exit status is 1; no library call is made and no file is touched. *)
Theorem missing_PIL_is_not_handled (w : World) :
  pil_installed w = false ->
  exit_status (run w) = 1 /\
  stdout (final (run w)) = [] /\
  uncaught (run w) = Some {| exn_cls := ModuleNotFoundError;
                             exn_str := "No module named 'PIL'" |} /\
  calls (final (run w)) = [] /\
  fs (final (run w)) = cwd w.
Proof.
  intros Hpil. destruct (run_ending w); cbn; try congruence. done.
Qed.

Lemma missing_PIL_is_not_handled_witness :
  pil_installed w_no_pil = false /\
  exit_status (run w_no_pil) = 1 /\
  stdout (final (run w_no_pil)) = [] /\
  uncaught (run w_no_pil) = Some {| exn_cls := ModuleNotFoundError;
                                    exn_str := "No module named 'PIL'" |} /\
  calls (final (run w_no_pil)) = [] /\
  fs (final (run w_no_pil)) = cwd w_no_pil.
Proof.
  split; [reflexivity |].
  apply (missing_PIL_is_not_handled w_no_pil). reflexivity.
Defined.



(** The calls of a run are pairwise distinct: they differ in their
    constructor or in their path. *)
Ltac nodup_calls img :=
  unfold calls_before_save; destruct (is_RGBA img); cbn;
  repeat constructor; rewrite ?not_elem_of_cons; repeat split;
  try apply not_elem_of_nil; discriminate.

(** Under a standard output that takes every line and flushes: the exit
    status is 0 exactly when nothing failed between the import and the last
    print, and 1 otherwise; a call that raised is the last call of the run,
    and no call is made twice. *)
Lemma exit_status_tells_failure (w : World) :
  (exit_status (run w) = 0 <-> no_failure w) /\
  (~ no_failure w -> exit_status (run w) = 1) /\
  (forall i c, calls (final (run w)) !! i = Some (c, false) ->
     S i = length (calls (final (run w))) /\ exit_status (run w) = 1) /\
  NoDup (fst <$> calls (final (run w))).
Proof.
  assert (Hno : forall img,
    decode w (cwd w) src = inr img -> no_failure w ->
    (is_RGBA img = false -> fault w (Convert img M_RGBA) = None) /\
    fault w (Save (prepared w img) dst PNG) = None /\
    fault w (Open dst) = None).
  { intros img Hd (_ & img' & Hd' & Hc & Hs & Hr).
    rewrite Hd in Hd'. injection Hd' as <-.
    repeat split; try done. intros Hm. by apply Hc, is_RGBA_false. }
  destruct (run_ending w) as
    [Hpil|e Hpil Hopen|img e Hpil Hopen Hmode Hconv
    |img e Hpil Hopen Hconv Hsave|img e Hpil Hopen Hconv Hsave Hre
    |img Hpil Hopen Hconv Hsave Hre]; cbn;
    (split; [split; [try discriminate | intros Hnf]
            | split; [intros Hnf | split; [intros i c Hi |]]]);
    try reflexivity.
  - destruct Hnf. congruence.
  - done.
  - constructor.
  - destruct Hnf as (_ & img & Hd & _). congruence.
  - destruct i as [|[|]]; cbn in *; by simplify_eq.
  - repeat constructor. apply not_elem_of_nil.
  - destruct (Hno img Hopen Hnf) as (Hc & _). rewrite Hc in Hconv; done.
  - destruct i as [|[|[|]]]; cbn in *; by simplify_eq.
  - nodup_calls img.
  - destruct (Hno img Hopen Hnf) as (_ & Hs & _). congruence.
  - revert Hi. unfold calls_before_save.
    destruct (is_RGBA img); destruct i as [|[|[|[|]]]]; cbn; intros; by simplify_eq.
  - nodup_calls img.
  - destruct (Hno img Hopen Hnf) as (_ & _ & Hr). congruence.
  - revert Hi. unfold calls_before_save.
    destruct (is_RGBA img); destruct i as [|[|[|[|[|]]]]]; cbn; intros; by simplify_eq.
  - nodup_calls img.
  - split; [done |]. exists img. repeat split; try done.
    intros Hm. by apply Hconv, is_RGBA_false.
  - exfalso. apply Hnf. split; [done |]. exists img. repeat split; try done.
    intros Hm. by apply Hconv, is_RGBA_false.
  - revert Hi. unfold calls_before_save.
    destruct (is_RGBA img); destruct i as [|[|[|[|[|]]]]]; cbn; intros; by simplify_eq.
  - nodup_calls img.
Qed.

(** Under a standard output that takes every line, the run is the run
    under the working one, but for the exit status when the flush fails. *)
Lemma accepted_run (c : Console) (w : World) :
  accepts_all c ->
  final (run_in c w) = final (run w) /\
  uncaught (run_in c w) = uncaught (run w) /\
  exit_status (run_in c w) =
    if flush_fault c && pending (final (run w)) then 120
    else exit_status (run w).
Proof.
  intros Hc.
  pose proof (ending_unique w _ _ (accepted_run_ending c w Hc) (run_ending w))
    as Heq.
  rewrite <- Heq. done.
Qed.

(** With Pillow installed every run prints something. *)
Lemma installed_run_prints (w : World) :
  pil_installed w = true -> pending (final (run w)) = true.
Proof.
  intros Hpil. destruct (run_ending w); try done. congruence.
Qed.

(** *** Under any standard output *)

(** A handler ends in [sys.exit(1)], or in the exception its own [print]
    raised; it touches neither the files nor the log of calls. *)
Lemma handlers_cases (c : Console) (e : exn) (s : state) :
  exists sg s',
    handlers c e s = (inl sg, s') /\
    (sg = SystemExit 1 \/ exists e', sg = Raise e') /\
    fs s' = fs s /\ calls s' = calls s.
Proof.
  unfold handlers, print, bind, sys_exit.
  destruct (isinstance_ImportError e), (attached c);
    try destruct (write_fault c _); cbn; eauto 10.
Qed.

(** The body of the [try] reaches its end only when every call returned. *)
Lemma try_body_returns (c : Console) (w : World) (s' : state) :
  try_body c w (initial w) = (inr tt, s') ->
  exists img,
    decode w (cwd w) src = inr img /\
    (Image_mode img <> M_RGBA -> fault w (Convert img M_RGBA) = None) /\
    fault w (Save (prepared w img) dst PNG) = None /\
    fault w (Open dst) = None.
Proof.
  cbv [bind ret try_body Image_open get_fs library_call record
       raise initial fs stdout calls].
  destruct (decode w (cwd w) src) as [e|img] eqn:Hopen; [discriminate |].
  intros H. exists img. split; [done |].
  fold (is_RGBA img) in H.
  assert (Hconv : Image_mode img <> M_RGBA ->
                  fault w (Convert img M_RGBA) = None).
  { intros Hm%is_RGBA_false. rewrite Hm in H. cbn [negb] in H.
    cbv [Image_convert library_call record raise ret bind] in H.
    by destruct (fault w (Convert img M_RGBA)). }
  split; [done |].
  assert (H' : exists s0,
    (Image_save w (prepared w img) dst PNG ;;
     print c "Successfully converted to RGBA format" ;;
     test_img <- Image_open w dst ;;
     print c ("New image mode: " +:+ mode_name (Image_mode test_img)) ;;
     print c ("New image size: " +:+ show_size (Image_size test_img))) s0
    = (inr tt, s') /\ fs s0 = cwd w).
  { unfold prepared. destruct (is_RGBA img) eqn:Hm; cbn [negb] in H.
    - eexists. split; [exact H | done].
    - cbv [Image_convert library_call record raise ret bind] in H.
      destruct (fault w (Convert img M_RGBA)); [discriminate |].
      eexists. split; [exact H | done]. }
  destruct H' as (s0 & H' & Hfs). clear H.
  cbv [bind Image_save get_fs put_fs library_call record raise ret
       Image_open] in H'.
  rewrite encode_prepared in H'.
  destruct (fault w (Save (prepared w img) dst PNG)); [discriminate |].
  split; [done |].
  cbn [fs stdout calls] in H'.
  destruct (print c _ _) as [[?|?] s1] eqn:Hp1 in H'; [discriminate |].
  assert (Hfs1 : fs s1 = write dst (ImageFile PNG (prepared w img)) (fs s0)).
  { pose proof (print_keeps_files c "Successfully converted to RGBA format"
      {| fs := write dst (ImageFile PNG (prepared w img)) (fs s0);
         stdout := stdout s0;
         calls := calls s0 ++ [(Save (prepared w img) dst PNG, true)] |}) as Hk.
    rewrite Hp1 in Hk. exact Hk. }
  rewrite Hfs1, decode_saved in H'.
  by destruct (fault w (Open dst)).
Qed.

(** Nothing in the body of the [try] calls [sys.exit]. *)
Lemma try_body_never_exits (c : Console) (w : World) (s : state) :
  match fst (try_body c w s) with
  | inl (SystemExit _) => False
  | _ => True
  end.
Proof.
  cbv [bind ret try_body Image_open Image_convert Image_save get_fs put_fs
       library_call record raise print].
  repeat (match goal with
          | |- context [match ?x with _ => _ end] =>
              lazymatch x with
              | context [match _ with _ => _ end] => fail
              | _ => destruct x eqn:?
              end
          end; cbn [fst snd]); done.
Qed.

(** Whatever standard output does: the exit status is 0, 1 or 120; 120
    only when the flush at shutdown fails; 0 only when nothing failed. *)
Lemma exit_status_any_console (c : Console) (w : World) :
  (exit_status (run_in c w) = 0 \/ exit_status (run_in c w) = 1 \/
   exit_status (run_in c w) = 120) /\
  (exit_status (run_in c w) = 120 -> flush_fault c = true) /\
  (exit_status (run_in c w) = 0 -> no_failure w).
Proof.
  unfold run_in, process_end, convert_to_rgba, import_PIL, no_failure, bind,
    try_except.
  destruct (pil_installed w) eqn:Hpil; cbn [ret raise].
  2: { cbn. rewrite andb_false_r. repeat split; try discriminate. by right; left. }
  pose proof (try_body_never_exits c w (initial w)) as Hnever.
  pose proof (try_body_returns c w) as Hret.
  destruct (try_body c w (initial w)) as [[[e|code]|[]] s'] eqn:Hb;
    cbn [fst] in Hnever.
  - destruct (handlers_cases c e s') as (sg & s'' & -> & [->|[e' ->]] & _);
      cbn [fst snd]; destruct (flush_fault c), (pending s''); cbn;
      repeat split; try discriminate; tauto.
  - done.
  - cbn [fst snd]. specialize (Hret s' eq_refl).
    destruct (flush_fault c), (pending s'); cbn;
      repeat split; try discriminate; tauto.
Qed.

(** C8, with the standard output in the picture.  Whatever it does, the
    exit status is 0, 1 or 120: 120 only when the flush at shutdown fails,
    and 0 only when nothing failed between the import and the last print.
    When it takes every line the script prints: if it can also be flushed,
    the exit status is 0 exactly when nothing failed, and 1 otherwise; if
    the flush at shutdown fails, the exit status is 120 whenever Pillow was
    there, whether the sequence completed or not.  In both cases a call
    that raised is the last call of the run (the first failure ends it, the
    status is not 0), and no call is made twice. *)
Theorem exit_status_by_console (c : Console) (w : World) :
  (exit_status (run_in c w) = 0 \/ exit_status (run_in c w) = 1 \/
   exit_status (run_in c w) = 120) /\
  (exit_status (run_in c w) = 120 -> flush_fault c = true) /\
  (exit_status (run_in c w) = 0 -> no_failure w) /\
  (accepts_all c ->
   (flush_fault c = false ->
    (exit_status (run_in c w) = 0 <-> no_failure w) /\
    (~ no_failure w -> exit_status (run_in c w) = 1)) /\
   (flush_fault c = true -> pil_installed w = true ->
    exit_status (run_in c w) = 120) /\
   (forall i call,
      calls (final (run_in c w)) !! i = Some (call, false) ->
      S i = length (calls (final (run_in c w))) /\
      exit_status (run_in c w) <> 0) /\
   NoDup (fst <$> calls (final (run_in c w)))).
Proof.
  destruct (exit_status_any_console c w) as (Hval & H120 & H0).
  split; [exact Hval |]. split; [exact H120 |]. split; [exact H0 |].
  intros Hc.
  destruct (accepted_run c w Hc) as (Hfinal & _ & Hexit).
  destruct (exit_status_tells_failure w) as (Hiff & Hone & Hlast & Hnodup).
  rewrite Hfinal, Hexit.
  split; [| split; [| split]].
  - intros ->. done.
  - intros -> Hpil. by rewrite installed_run_prints.
  - intros i call Hi. destruct (Hlast i call Hi) as [Hlen Hst].
    split; [done |]. rewrite Hst. by destruct (_ && _).
  - done.
Qed.

Lemma exit_status_by_console_witness :
  (no_failure w_rgb /\ exit_status (run_in working w_rgb) = 0) /\
  (~ no_failure w_reopen_fails /\
   exit_status (run_in working w_reopen_fails) = 1) /\
  exit_status (run_in unflushable w_rgb) = 120 /\
  (calls (final (run_in working w_reopen_fails)) !! 3%nat
     = Some (Open dst, false) /\
   4%nat = length (calls (final (run_in working w_reopen_fails)))).
Proof.
  destruct (exit_status_by_console working w_rgb) as (_ & _ & _ & Hacc).
  destruct (Hacc working_accepts_all) as (Hok & _).
  destruct (exit_status_by_console working w_reopen_fails)
    as (_ & _ & _ & Hacc').
  destruct (Hacc' working_accepts_all) as (Hbad & _ & Hlast & _).
  assert (Hun : accepts_all unflushable) by (by split).
  destruct (exit_status_by_console unflushable w_rgb) as (_ & _ & _ & Hacc'').
  destruct (Hacc'' Hun) as (_ & Hflush & _).
  destruct (Hok eq_refl) as [Hiff _].
  destruct (Hbad eq_refl) as [Hiff' Hone].
  assert (Hex : exit_status (run_in working w_rgb) = 0)
    by (vm_compute; reflexivity).
  assert (Hnot : ~ no_failure w_reopen_fails).
  { intros Hnf. apply Hiff' in Hnf. vm_compute in Hnf. discriminate. }
  assert (Hcall : calls (final (run_in working w_reopen_fails)) !! 3%nat
                  = Some (Open dst, false)) by (vm_compute; reflexivity).
  split; [split; [apply Hiff, Hex | exact Hex] |].
  split; [split; [exact Hnot | apply Hone, Hnot] |].
  split; [apply Hflush; reflexivity |].
  split; [exact Hcall | apply (Hlast _ _ Hcall)].
Defined.

(** C8 as the specification words it fails when the lines the script
    printed cannot be flushed: the interpreter then exits with 120, after a
    run in which nothing failed and after a handled failure alike. *)
Lemma flush_failure_exits_120 :
  (no_failure w_rgb /\ exit_status (run_in unflushable w_rgb) = 120) /\
  (~ no_failure w_missing /\ exit_status (run_in unflushable w_missing) = 120).
Proof.
  split; split; try (vm_compute; reflexivity).
  - split; [reflexivity |]. exists icon_rgb.
    split; [vm_compute; reflexivity |]. by repeat split.
  - intros (_ & img & Hd & _). vm_compute in Hd. discriminate.
Qed.

(** What line 19 failing means for the output: the success line of line 16
    is already printed when the handler adds its own, and the file the save
    wrote stays. *)
Lemma reopen_failure_follows_success_line (w : World) (img : Image) (e : exn) :
  pil_installed w = true ->
  decode w (cwd w) src = inr img ->
  (is_RGBA img = false -> fault w (Convert img M_RGBA) = None) ->
  fault w (Save (prepared w img) dst PNG) = None ->
  fault w (Open dst) = Some e ->
  exit_status (run w) = 1 /\
  stdout (final (run w)) = [success_line; report e] /\
  fs (final (run w)) = write dst (ImageFile PNG (prepared w img)) (cwd w) /\
  fs (final (run w)) !! dst = Some (ImageFile PNG (prepared w img)) /\
  calls (final (run w)) =
    calls_before_save img
      ++ [(Save (prepared w img) dst PNG, true); (Open dst, false)].
Proof.
  intros Hpil Hopen Hconv Hsave Hre.
  destruct (run_ending w) as
    [?|? ? ?|img' e' ? Hopen' Hmode Hconv'|img' e' ? Hopen' ? Hsave'
    |img' e' ? Hopen' ? ? Hre'|img' ? Hopen' ? ? Hre']; cbn; try congruence;
    assert (img' = img) as -> by congruence; try congruence.
  - rewrite (Hconv Hmode) in Hconv'. discriminate.
  - assert (e' = e) as -> by congruence.
    by rewrite lookup_write_eq.
Qed.

(** C9: there is a run, in a directory with no 'app_icon_rgba.png' at the
    start, that prints the success line, leaves at the destination the PNG
    of the converted source, written by the save of line 15, and still
    exits with status 1, because the re-open of line 19 raised.  And in
    every run in which the save returns and the re-open raises, the success
    line is already printed when the handler adds its line, the exit status
    is 1, the save of the prepared image is in the log as returned and the
    failed re-open is the last call. *)
Theorem success_line_with_exit_1 :
  (exists w : World,
     cwd w !! src = Some (ImageFile PNG icon_rgb) /\
     cwd w !! dst = None /\
     exit_status (run w) = 1 /\
     stdout (final (run w)) =
       [success_line; "Error: [Errno 5] Input/output error"] /\
     fs (final (run w)) !! dst = Some (ImageFile PNG (to_RGBA w icon_rgb)) /\
     calls (final (run w)) =
       [(Open src, true); (Convert icon_rgb M_RGBA, true);
        (Save (to_RGBA w icon_rgb) dst PNG, true); (Open dst, false)]) /\
  (forall (w : World) (img : Image) (e : exn),
     pil_installed w = true ->
     decode w (cwd w) src = inr img ->
     (Image_mode img <> M_RGBA -> fault w (Convert img M_RGBA) = None) ->
     fault w (Save (prepared w img) dst PNG) = None ->
     fault w (Open dst) = Some e ->
     exit_status (run w) = 1 /\
     stdout (final (run w)) = [success_line; report e] /\
     last (calls (final (run w))) = Some (Open dst, false) /\
     (Save (prepared w img) dst PNG, true) ∈ calls (final (run w))).
Proof.
  split.
  - exists w_reopen_fails. repeat split; vm_compute; reflexivity.
  - intros w img e Hpil Hopen Hconv Hsave Hre.
    assert (Hconv' : is_RGBA img = false -> fault w (Convert img M_RGBA) = None).
    { intros Hm. by apply Hconv, is_RGBA_false. }
    destruct (reopen_failure_follows_success_line w img e Hpil Hopen Hconv'
                Hsave Hre) as (H1 & H2 & H3 & H4 & H5).
    repeat split; try done.
    + rewrite H5, last_app. done.
    + rewrite H5. apply elem_of_app. right. apply elem_of_cons. by left.
Qed.

Lemma success_line_with_exit_1_witness :
  exit_status (run w_reopen_fails) = 1 /\
  stdout (final (run w_reopen_fails)) =
    [success_line; "Error: [Errno 5] Input/output error"] /\
  last (calls (final (run w_reopen_fails))) = Some (Open dst, false).
Proof.
  destruct success_line_with_exit_1 as [_ Hall].
  assert (Hdec : decode w_reopen_fails (cwd w_reopen_fails) src = inr icon_rgb)
    by (vm_compute; reflexivity).
  destruct (Hall w_reopen_fails icon_rgb
              {| exn_cls := OSError;
                 exn_str := "[Errno 5] Input/output error" |}
              eq_refl Hdec (fun _ => eq_refl) eq_refl eq_refl)
    as (H1 & H2 & H3 & _).
  split; [exact H1 |]. split; [exact H2 | exact H3].
Defined.

(** C10, with links in the picture: whatever way a run ends, every name
    other than 'app_icon_rgba.png' that does not refer to the same file
    reads at the end as it did at the start; so does 'app_icon.png' unless
    the destination is a link to it; and no [save] in the log names another
    path. *)
Theorem only_the_destination_is_written (w : World) :
  (forall p, p <> dst -> ~ same_file (cwd w) dst p ->
             fs (final (run w)) !! p = cwd w !! p) /\
  (~ same_file (cwd w) dst src -> fs (final (run w)) !! src = cwd w !! src) /\
  existsb (writes_elsewhere dst) (calls (final (run w))) = false.
Proof.
  assert (Hlog : forall img tail,
    existsb (writes_elsewhere dst) tail = false ->
    existsb (writes_elsewhere dst) (calls_before_save img ++ tail) = false).
  { intros img tail Ht. rewrite existsb_app, Ht.
    unfold calls_before_save. by destruct (is_RGBA img). }
  assert (Hall : (forall p, p <> dst -> ~ same_file (cwd w) dst p ->
                            fs (final (run w)) !! p = cwd w !! p) /\
                 existsb (writes_elsewhere dst) (calls (final (run w))) = false).
  { destruct (run_ending w); unfold handled; cbn [final fs calls initial];
      (split; [intros p Hne Hshare | try done; by apply Hlog]); try done.
    - by apply with_debris_other.
    - by apply lookup_write_other.
    - by apply lookup_write_other. }
  destruct Hall as [Hframe Hcalls].
  split; [exact Hframe |]. split; [| exact Hcalls].
  intros Hshare. by apply Hframe.
Qed.

Lemma only_the_destination_is_written_witness :
  fs (final (run w_rgb)) !! src = cwd w_rgb !! src.
Proof.
  destruct (only_the_destination_is_written w_rgb) as (_ & Hsrc & _).
  apply Hsrc. intros (i & Hdst & _). vm_compute in Hdst. discriminate.
Defined.

(** C10 as the specification words it fails when 'app_icon_rgba.png' is a
    link to 'app_icon.png': the save of line 15 goes through the link and
    replaces the source, and the run exits with status 0. *)
Lemma linked_destination_overwrites_source :
  same_file (cwd w_linked) dst src /\
  cwd w_linked !! src = Some (ImageFile PNG icon_rgb) /\
  exit_status (run w_linked) = 0 /\
  fs (final (run w_linked)) !! src
    = Some (ImageFile PNG (to_RGBA w_linked icon_rgb)) /\
  fs (final (run w_linked)) !! src <> cwd w_linked !! src.
Proof.
  split; [exists 1%nat; split; vm_compute; reflexivity |].
  repeat split; vm_compute; congruence.
Qed.

(** ** Lines 11 and 12: the mode test *)

(** With no fault on the call, opening a path that holds an image gives
    that image. *)
Lemma decode_image (w : World) (dir : directory) (path : string)
    (fmt : format) (img : Image) :
  dir !! path = Some (ImageFile fmt img) ->
  fault w (Open path) = None ->
  decode w dir path = inr img.
Proof. intros Hf Hno. unfold decode. by rewrite Hno, Hf. Qed.

(** A decoded image is the one the file holds. *)
Lemma decode_inr (w : World) (dir : directory) (path : string)
    (fmt : format) (img img' : Image) :
  dir !! path = Some (ImageFile fmt img) ->
  decode w dir path = inr img' ->
  img' = img.
Proof.
  intros Hf. unfold decode. rewrite Hf.
  destruct (fault w _); congruence.
Qed.

(** C3, as the script has it: once the source is decoded, [convert] is
    skipped exactly when the mode is 'RGBA', and then the decoded image
    itself goes to the encoder; for every other mode the second call is
    [convert('RGBA')], and when it returns, its result, of mode 'RGBA',
    goes to the encoder. *)
Theorem conversion_skipped_iff_RGBA (w : World) (img : Image) :
  pil_installed w = true ->
  decode w (cwd w) src = inr img ->
  (conversion_skipped (run w) = true <-> Image_mode img = M_RGBA) /\
  (Image_mode img = M_RGBA ->
   exists ok, calls (final (run w)) !! 1%nat = Some (Save img dst PNG, ok)) /\
  (Image_mode img <> M_RGBA ->
   exists ok,
     calls (final (run w)) !! 1%nat = Some (Convert img M_RGBA, ok) /\
     (ok = true ->
      exists ok', calls (final (run w)) !! 2%nat
                  = Some (Save (to_RGBA w img) dst PNG, ok')) /\
     has_alpha (Image_mode (to_RGBA w img)) = true).
Proof.
  intros Hpil Hopen.
  rewrite <- is_RGBA_true.
  destruct (run_ending w) as
    [?|? ? ?|img' e' ? Hopen' Hmode Hconv'|img' e' ? Hopen' ? Hsave'
    |img' e' ? Hopen' ? ? Hre'|img' ? Hopen' ? ? Hre']; try congruence;
    assert (img' = img) as -> by congruence;
    unfold conversion_skipped, handled, final, calls, calls_before_save,
      prepared;
    destruct (is_RGBA img) eqn:Hm; try discriminate; cbn;
    (split; [split; congruence |]);
    (split; [intros ?; try discriminate; eexists; reflexivity |]);
    intros Hn; try (exfalso; by apply Hn);
    eexists; (split; [reflexivity |]);
    (split; [intros ?; try discriminate; eexists; reflexivity | reflexivity]).
Qed.

Lemma conversion_skipped_iff_RGBA_witness :
  (conversion_skipped (run w_rgba) = true /\
   calls (final (run w_rgba)) !! 1%nat = Some (Save icon_rgba dst PNG, true)) /\
  (conversion_skipped (run w_la) = false /\
   calls (final (run w_la)) !! 1%nat = Some (Convert icon_la M_RGBA, true)).
Proof.
  assert (Hrgba : decode w_rgba (cwd w_rgba) src = inr icon_rgba)
    by (vm_compute; reflexivity).
  assert (Hla : decode w_la (cwd w_la) src = inr icon_la)
    by (vm_compute; reflexivity).
  destruct (conversion_skipped_iff_RGBA w_rgba icon_rgba eq_refl Hrgba)
    as (Hiff & Hpass & _).
  destruct (conversion_skipped_iff_RGBA w_la icon_la eq_refl Hla)
    as (Hiff' & _ & Hconv).
  split; split.
  - apply Hiff. reflexivity.
  - destruct (Hpass eq_refl) as [ok Hok]. rewrite Hok.
    vm_compute in Hok. congruence.
  - destruct (conversion_skipped (run w_la)) eqn:E; [| reflexivity].
    destruct Hiff' as [Hto _]. specialize (Hto eq_refl). discriminate.
  - destruct Hconv as (ok & Hok & _); [discriminate |]. rewrite Hok.
    vm_compute in Hok. congruence.
Defined.

(** C3 as the specification words it fails on a grey-with-alpha source: mode
    'LA' carries an alpha channel, and the script converts it all the same. *)
Lemma LA_source_is_converted :
  decode w_la (cwd w_la) src = inr icon_la /\
  has_alpha (Image_mode icon_la) = true /\
  conversion_skipped (run w_la) = false /\
  ~ (conversion_skipped (run w_la) = true
     <-> has_alpha (Image_mode icon_la) = true).
Proof.
  split; [vm_compute; reflexivity |].
  split; [reflexivity |].
  assert (H : conversion_skipped (run w_la) = false) by (vm_compute; reflexivity).
  split; [exact H |].
  intros [_ Hback]. pose proof (Hback eq_refl) as Ht.
  rewrite H in Ht. discriminate.
Qed.

(** ** Line 15: what is written, and in which format *)

(** With Pillow installed, an image at the source path and an environment
    that makes no call fail, the run exits with status 0. *)
Lemma quiet_run_succeeds (w : World) (fmt : format) (img : Image) :
  pil_installed w = true ->
  cwd w !! src = Some (ImageFile fmt img) ->
  (forall c, fault w c = None) ->
  exit_status (run w) = 0.
Proof.
  intros Hpil Hsrc Hno.
  pose proof (decode_image w (cwd w) src fmt img Hsrc (Hno _)) as Hd.
  destruct (run_ending w); try reflexivity; congruence.
Qed.

(** C4, as the script has it: when the source decodes and neither the
    conversion nor the save is made to fail, the destination holds the
    prepared image encoded as PNG, whatever the container format of the
    source; the two formats agree exactly when the source is a PNG. *)
Theorem destination_is_encoded_as_PNG (w : World) (fmt : format) (img : Image) :
  pil_installed w = true ->
  cwd w !! src = Some (ImageFile fmt img) ->
  fault w (Open src) = None ->
  (Image_mode img <> M_RGBA -> fault w (Convert img M_RGBA) = None) ->
  fault w (Save (prepared w img) dst PNG) = None ->
  fs (final (run w)) !! dst = Some (ImageFile PNG (prepared w img)) /\
  (Save (prepared w img) dst PNG, true) ∈ calls (final (run w)) /\
  (fs (final (run w)) !! dst ≫= container = cwd w !! src ≫= container
   <-> fmt = PNG).
Proof.
  intros Hpil Hsrc Hno Hconv Hsave.
  pose proof (decode_image w (cwd w) src fmt img Hsrc Hno) as Hd.
  assert (Hdst : fs (final (run w)) !! dst
                 = Some (ImageFile PNG (prepared w img)) /\
                 (Save (prepared w img) dst PNG, true) ∈ calls (final (run w))).
  { destruct (run_ending w) as
      [?|? ? ?|img' e' ? Hopen' Hmode Hconv'|img' e' ? Hopen' ? Hsave'
      |img' e' ? Hopen' ? ? Hre'|img' ? Hopen' ? ? Hre']; try congruence;
      assert (img' = img) as -> by congruence; try congruence.
    - apply is_RGBA_false, Hconv in Hmode. congruence.
    - unfold handled. cbn [final fs calls].
      rewrite lookup_write_eq. split; [done |].
      apply elem_of_app. right. apply elem_of_cons. by left.
    - cbn [final fs calls].
      rewrite lookup_write_eq. split; [done |].
      apply elem_of_app. right. apply elem_of_cons. by left. }
  destruct Hdst as [Hdst Hin]. repeat split; try done.
  - rewrite Hdst, Hsrc. cbn. congruence.
  - intros ->. by rewrite Hdst, Hsrc.
Qed.

Lemma destination_is_encoded_as_PNG_witness :
  fs (final (run w_rgb)) !! dst = Some (ImageFile PNG (prepared w_rgb icon_rgb)) /\
  (Save (prepared w_rgb icon_rgb) dst PNG, true) ∈ calls (final (run w_rgb)) /\
  fs (final (run w_rgb)) !! dst ≫= container = cwd w_rgb !! src ≫= container.
Proof.
  assert (Hsrc : cwd w_rgb !! src = Some (ImageFile PNG icon_rgb))
    by (vm_compute; reflexivity).
  destruct (destination_is_encoded_as_PNG w_rgb PNG icon_rgb eq_refl Hsrc
              eq_refl (fun _ => eq_refl) eq_refl) as (H1 & H2 & H3).
  split; [exact H1 |]. split; [exact H2 |]. apply H3. reflexivity.
Defined.

(** C4 as the specification words it fails on a source that is not a PNG:
    [Image.open] decodes a JPEG stored under the name 'app_icon.png', and
    the destination is a PNG all the same. *)
Lemma JPEG_source_gives_PNG :
  cwd w_jpeg !! src ≫= container = Some JPEG /\
  decode w_jpeg (cwd w_jpeg) src = inr icon_rgb /\
  exit_status (run w_jpeg) = 0 /\
  fs (final (run w_jpeg)) !! dst ≫= container = Some PNG /\
  fs (final (run w_jpeg)) !! dst ≫= container
    <> cwd w_jpeg !! src ≫= container.
Proof. repeat split; vm_compute; congruence. Qed.

(** ** Lines 11 to 15 on the pixels *)

Lemma to_RGBA_lookup (w : World) (img : Image) (i : nat) (px : list Z) :
  Image_data img !! i = Some px ->
  Image_data (to_RGBA w img) !! i = Some (to_RGBA_pixel w img px).
Proof.
  unfold to_RGBA. cbn [Image_data].
  revert i. induction (Image_data img) as [|p l IH]; intros [|i] H;
    cbn in *; try discriminate.
  - congruence.
  - by apply IH.
Qed.

Lemma to_RGBA_pixel_alpha (w : World) (img : Image) (px : list Z) :
  exists r g b,
    rgb w img px = (r, g, b) /\
    to_RGBA_pixel w img px = [r; g; b; default 255 (explicit_alpha w img px)].
Proof.
  unfold to_RGBA_pixel. destruct (rgb w img px) as [[r g] b]. eauto.
Qed.

(** What a run that exits with status 0 leaves at the destination. *)
Lemma successful_run_destination (w : World) (fmt : format) (img : Image) :
  cwd w !! src = Some (ImageFile fmt img) ->
  exit_status (run w) = 0 ->
  fs (final (run w)) !! dst = Some (ImageFile PNG (prepared w img)).
Proof.
  intros Hsrc.
  destruct (run_ending w) as [| | | | |img' ? Hopen]; cbn; try discriminate.
  intros _. rewrite lookup_write_eq.
  by rewrite (decode_inr _ _ _ _ _ _ Hsrc Hopen).
Qed.



(** C7, as the script has it: for a run that exits with status 0 on a source
    image [img],
    - when the mode of [img] is 'RGBA', the destination holds [img] itself
      (same pixels, mode and size), and an undisturbed run does exit with
      status 0;
    - running the script again on what it wrote, in any world, writes the
      same file again;
    - when [img] has an alpha band in another mode, every pixel of the
      destination has four bands, the last being the alpha value the source
      pixel carried. *)
Theorem RGBA_source_passes_through (w : World) (fmt : format) (img : Image) :
  pil_installed w = true ->
  cwd w !! src = Some (ImageFile fmt img) ->
  (Image_mode img = M_RGBA ->
   ((forall c, fault w c = None) -> exit_status (run w) = 0) /\
   (exit_status (run w) = 0 ->
    fs (final (run w)) !! dst = Some (ImageFile PNG img))) /\
  (exit_status (run w) = 0 ->
   forall w' : World,
     cwd w' !! src = fs (final (run w)) !! dst ->
     exit_status (run w') = 0 ->
     fs (final (run w')) !! dst = fs (final (run w)) !! dst) /\
  (has_alpha (Image_mode img) = true ->
   Image_mode img <> M_RGBA ->
   exit_status (run w) = 0 ->
   exists out,
     fs (final (run w)) !! dst = Some (ImageFile PNG out) /\
     Image_mode out = M_RGBA /\
     forall i px,
       Image_data img !! i = Some px ->
       exists r g b,
         Image_data out !! i = Some [r; g; b; default 255 (last px)]).
Proof.
  intros Hpil Hsrc.
  assert (Hpass : forall (v : World) (x : Image),
            Image_mode x = M_RGBA -> prepared v x = x).
  { intros v x Hm. unfold prepared. apply is_RGBA_true in Hm. by rewrite Hm. }
  split; [| split].
  - intros Hm. split; [by apply (quiet_run_succeeds w fmt img) |].
    intros Hexit. rewrite (successful_run_destination w fmt img Hsrc Hexit).
    by rewrite Hpass.
  - intros Hexit w' Hsrc' Hexit'.
    rewrite (successful_run_destination w fmt img Hsrc Hexit) in *.
    rewrite (successful_run_destination w' PNG _ Hsrc' Hexit').
    rewrite (Hpass w'); [done | apply prepared_mode].
  - intros Halpha Hm Hexit. exists (prepared w img).
    split; [by apply (successful_run_destination w fmt) |].
    split; [apply prepared_mode |].
    intros i px Hpx. unfold prepared.
    apply is_RGBA_false in Hm. rewrite Hm.
    destruct (to_RGBA_pixel_alpha w img px) as (r & g & b & _ & Hp).
    exists r, g, b. rewrite (to_RGBA_lookup w img i px Hpx), Hp.
    unfold explicit_alpha. by rewrite Halpha.
Qed.

Lemma RGBA_source_passes_through_witness :
  (exit_status (run w_rgba) = 0 /\
   fs (final (run w_rgba)) !! dst = Some (ImageFile PNG icon_rgba)) /\
  (exit_status (run (world_with (ImageFile PNG icon_rgba))) = 0 /\
   fs (final (run (world_with (ImageFile PNG icon_rgba)))) !! dst
     = fs (final (run w_rgba)) !! dst) /\
  (exit_status (run w_la) = 0 /\
   exists out r g b,
     fs (final (run w_la)) !! dst = Some (ImageFile PNG out) /\
     Image_data out !! 0%nat = Some [r; g; b; 128]).
Proof.
  assert (Hsrc : cwd w_rgba !! src = Some (ImageFile PNG icon_rgba))
    by (vm_compute; reflexivity).
  assert (Hla : cwd w_la !! src = Some (ImageFile PNG icon_la))
    by (vm_compute; reflexivity).
  destruct (RGBA_source_passes_through w_rgba PNG icon_rgba eq_refl Hsrc)
    as (Hpass & Hidem & _).
  destruct (RGBA_source_passes_through w_la PNG icon_la eq_refl Hla)
    as (_ & _ & Halpha).
  destruct (Hpass eq_refl) as [Hquiet Hsame].
  assert (Hexit : exit_status (run w_rgba) = 0)
    by (apply Hquiet; intros c; reflexivity).
  assert (Hexit_la : exit_status (run w_la) = 0) by (vm_compute; reflexivity).
  split; [split; [exact Hexit | exact (Hsame Hexit)] |].
  split.
  - split; [exact Hexit |].
    apply (Hidem Hexit (world_with (ImageFile PNG icon_rgba))); [| exact Hexit].
    rewrite (Hsame Hexit). exact Hsrc.
  - split; [exact Hexit_la |].
    destruct (Halpha eq_refl ltac:(discriminate) Hexit_la) as (out & Hdst & _ & Hpx).
    destruct (Hpx 0%nat [10; 128] eq_refl) as (r & g & b & Hout).
    exists out, r, g, b. split; [exact Hdst | exact Hout].
Defined.

(** C7 as the specification words it fails on a grey-with-alpha source: the
    mode has an alpha channel, the run succeeds, and the pixels written are
    not the pixels read (two bands became four). *)
Lemma LA_source_pixels_change :
  cwd w_la !! src = Some (ImageFile PNG icon_la) /\
  has_alpha (Image_mode icon_la) = true /\
  exit_status (run w_la) = 0 /\
  fs (final (run w_la)) !! dst
    = Some (ImageFile PNG (plain M_RGBA (1, 1) [[10; 10; 10; 128]])) /\
  Image_data (plain M_RGBA (1, 1) [[10; 10; 10; 128]]) <> Image_data icon_la.
Proof. repeat split; vm_compute; congruence. Qed.

(** ** Further properties of the script *)


Lemma report_is_guidance (e : exn) :
  report e = guidance_line <-> isinstance_ImportError e = true.
Proof.
  unfold report. by destruct (isinstance_ImportError e).
Qed.





(** Under the working standard output: the interpreter has nothing to
    report exactly when the import succeeded, and when the last call of the
    log is one the environment made fail with [e], the run exits with
    status 1 and the last line printed is the handler's line for [e]. *)
Lemma handler_line_for_last_call (w : World) :
  (uncaught (run w) = None <-> pil_installed w = true) /\
  (forall c e,
     last (calls (final (run w))) = Some (c, false) ->
     fault w c = Some e ->
     exit_status (run w) = 1 /\
     last (stdout (final (run w))) = Some (report e) /\
     (isinstance_ImportError e = false ->
      last (stdout (final (run w))) = Some ("Error: " +:+ exn_str e))).
Proof.
  assert (Hrep : forall e, isinstance_ImportError e = false ->
                           report e = "Error: " +:+ exn_str e).
  { intros e He. unfold report. by rewrite He. }
  destruct (run_ending w) as
    [Hpil|e0 Hpil Hopen|img e0 Hpil Hopen Hmode Hconv
    |img e0 Hpil Hopen Hconv Hsave|img e0 Hpil Hopen Hconv Hsave Hre
    |img Hpil Hopen Hconv Hsave Hre];
    unfold handled; cbn [uncaught final stdout calls exit_status initial app];
    (split; [split; congruence |]); intros c e Hlast Hf.
  - discriminate.
  - cbn in Hlast. injection Hlast as <-.
    unfold decode in Hopen. rewrite Hf in Hopen. injection Hopen as <-.
    repeat split. intros He. by rewrite Hrep.
  - cbn in Hlast. injection Hlast as <-.
    rewrite Hf in Hconv. injection Hconv as <-.
    repeat split. intros He. by rewrite Hrep.
  - rewrite last_snoc in Hlast. injection Hlast as <-.
    rewrite Hf in Hsave. injection Hsave as <-.
    repeat split. intros He. by rewrite Hrep.
  - rewrite last_app in Hlast. cbn in Hlast.
    injection Hlast as <-.
    rewrite Hf in Hre. injection Hre as <-.
    repeat split. intros He. by rewrite Hrep.
  - rewrite last_app in Hlast. discriminate.
Qed.

(** When standard output takes every line the script prints, no exception
    leaves the [try]: the interpreter has an exception to report exactly
    when the import of line 3 failed.  And a call that the environment made
    fail with [e] is the last call of the run; the exit status is then 1
    (120 when the flush at shutdown fails) and the last line printed is the
    handler's line for [e]: 'Error: ' followed by [str(e)], unless [e] is
    an [ImportError]. *)
Theorem failures_are_reported_by_a_handler (c : Console) (w : World) :
  accepts_all c ->
  (uncaught (run_in c w) = None <-> pil_installed w = true) /\
  (forall call e,
     (call, false) ∈ calls (final (run_in c w)) ->
     fault w call = Some e ->
     last (calls (final (run_in c w))) = Some (call, false) /\
     exit_status (run_in c w) = (if flush_fault c then 120 else 1) /\
     last (stdout (final (run_in c w))) = Some (report e) /\
     (isinstance_ImportError e = false ->
      last (stdout (final (run_in c w))) = Some ("Error: " +:+ exn_str e))).
Proof.
  intros Hc.
  destruct (accepted_run c w Hc) as (Hfinal & Hunc & Hexit).
  destruct (handler_line_for_last_call w) as [Hiff Hrep].
  destruct (exit_status_tells_failure w) as (_ & _ & Hlast & _).
  rewrite Hfinal, Hunc, Hexit.
  split; [exact Hiff |].
  intros call e Hin Hf.
  apply list_elem_of_lookup in Hin as [i Hi].
  destruct (Hlast i call Hi) as [Hlen _].
  assert (Hl : last (calls (final (run w))) = Some (call, false)).
  { rewrite last_lookup, <- Hlen. exact Hi. }
  destruct (Hrep call e Hl Hf) as (Hst & Hline & Herr).
  split; [exact Hl |]. split; [| split; assumption].
  rewrite Hst. unfold pending.
  destruct (stdout (final (run w))); [discriminate |].
  by rewrite andb_true_r.
Qed.

Lemma failures_are_reported_by_a_handler_witness :
  uncaught (run_in unflushable w_reopen_fails) = None /\
  last (calls (final (run_in unflushable w_reopen_fails)))
    = Some (Open dst, false) /\
  exit_status (run_in unflushable w_reopen_fails) = 120 /\
  last (stdout (final (run_in unflushable w_reopen_fails)))
    = Some "Error: [Errno 5] Input/output error".
Proof.
  assert (Hun : accepts_all unflushable) by (by split).
  destruct (failures_are_reported_by_a_handler unflushable w_reopen_fails Hun)
    as [Hno Hrep].
  split; [by apply Hno |].
  destruct (Hrep (Open dst)
              {| exn_cls := OSError;
                 exn_str := "[Errno 5] Input/output error" |})
    as (Hlast & Hexit & _ & Hline); [vm_compute; do 3 right; left | reflexivity |].
  split; [exact Hlast |]. split; [exact Hexit | by apply Hline].
Defined.

(** Under an unbuffered standard output that refuses every write, the
    handler's own [print] raises: the exception leaves the script although
    Pillow is installed, and nothing is printed. *)
Example unwritable_stdout_escapes_the_handler :
  pil_installed w_missing = true /\
  uncaught (run_in unwritable w_missing)
    = Some {| exn_cls := OSError;
              exn_str := "[Errno 28] No space left on device" |} /\
  stdout (final (run_in unwritable w_missing)) = [] /\
  exit_status (run_in unwritable w_missing) = 1.
Proof. repeat split; vm_compute; reflexivity. Qed.

(** The install guidance of line 24 is printed only when Pillow is installed
    and the environment made the last call raise an [ImportError]; the
    missing import of line 3 never prints it. *)
Theorem guidance_needs_import_error_inside_try (w : World) :
  guidance_line ∈ stdout (final (run w)) ->
  pil_installed w = true /\
  exists c e,
    last (calls (final (run w))) = Some (c, false) /\
    fault w c = Some e /\
    isinstance_ImportError e = true.
Proof.
  assert (Hdec : forall e,
            decode w (cwd w) src = inl e ->
            isinstance_ImportError e = true ->
            fault w (Open src) = Some e).
  { intros e. unfold decode.
    destruct (fault w (Open src)); [congruence |].
    destruct (cwd w !! src) as [[]|]; intros [= <-]; discriminate. }
  destruct (run_ending w) as
    [Hpil|e0 Hpil Hopen|img e0 Hpil Hopen Hmode Hconv
    |img e0 Hpil Hopen Hconv Hsave|img e0 Hpil Hopen Hconv Hsave Hre
    |img Hpil Hopen Hconv Hsave Hre];
    unfold handled; cbn [final stdout calls initial app];
    rewrite ?elem_of_cons, ?elem_of_nil; intros Hin.
  - done.
  - destruct Hin as [Hg|[]]. symmetry in Hg. apply report_is_guidance in Hg.
    split; [done |]. exists (Open src), e0. eauto.
  - destruct Hin as [Hg|[]]. symmetry in Hg. apply report_is_guidance in Hg.
    split; [done |]. exists (Convert img M_RGBA), e0. eauto.
  - destruct Hin as [Hg|[]]. symmetry in Hg. apply report_is_guidance in Hg.
    split; [done |]. exists (Save (prepared w img) dst PNG), e0.
    by rewrite last_snoc.
  - destruct Hin as [Hg|[Hg|[]]]; [discriminate |].
    symmetry in Hg. apply report_is_guidance in Hg.
    split; [done |]. exists (Open dst), e0.
    by rewrite last_app.
  - destruct Hin as [Hg|[Hg|[Hg|[]]]]; discriminate.
Qed.

Lemma guidance_needs_import_error_inside_try_witness :
  guidance_line ∈ stdout (final (run w_import_fault)) /\
  pil_installed w_import_fault = true /\
  exists c e,
    last (calls (final (run w_import_fault))) = Some (c, false) /\
    fault w_import_fault c = Some e /\
    isinstance_ImportError e = true.
Proof.
  assert (H : guidance_line ∈ stdout (final (run w_import_fault)))
    by (vm_compute; left).
  split; [exact H |].
  exact (guidance_needs_import_error_inside_try w_import_fault H).
Defined.

(** The script makes at most four library calls, each one of: open of
    'app_icon.png' or 'app_icon_rgba.png', [convert('RGBA')], [save] to
    'app_icon_rgba.png' as PNG; with Pillow installed the first is the open
    of the source, and without it there is none. *)
Theorem calls_follow_the_script (w : World) :
  forallb scripted_call (calls (final (run w))) = true /\
  (length (calls (final (run w))) <= 4)%nat /\
  (if pil_installed w
   then exists ok, head (calls (final (run w))) = Some (Open src, ok)
   else calls (final (run w)) = []).
Proof.
  destruct (run_ending w) as
    [Hpil|e0 Hpil Hopen|img e0 Hpil Hopen Hmode Hconv
    |img e0 Hpil Hopen Hconv Hsave|img e0 Hpil Hopen Hconv Hsave Hre
    |img Hpil Hopen Hconv Hsave Hre];
    unfold handled, calls_before_save; cbn [final calls initial];
    rewrite Hpil; try destruct (is_RGBA img); cbn;
    repeat split; try lia; eauto.
Qed.

(** A run whose log has no [save] leaves the working directory exactly as it
    found it: whatever fails before line 15 costs no file. *)
Theorem no_save_no_change (w : World) :
  existsb is_save (calls (final (run w))) = false ->
  fs (final (run w)) = cwd w.
Proof.
  destruct (run_ending w) as
    [Hpil|e0 Hpil Hopen|img e0 Hpil Hopen Hmode Hconv
    |img e0 Hpil Hopen Hconv Hsave|img e0 Hpil Hopen Hconv Hsave Hre
    |img Hpil Hopen Hconv Hsave Hre];
    unfold handled; cbn [final calls fs initial]; try done;
    rewrite existsb_app; cbn; rewrite orb_true_r; discriminate.
Qed.

Lemma no_save_no_change_witness :
  existsb is_save (calls (final (run w_not_image))) = false /\
  fs (final (run w_not_image)) = cwd w_not_image.
Proof.
  assert (H : existsb is_save (calls (final (run w_not_image))) = false)
    by (vm_compute; reflexivity).
  split; [exact H | exact (no_save_no_change w_not_image H)].
Defined.

(** When 'app_icon.png' exists but holds no image a decoder identifies, and
    nothing else goes wrong first, the only call is the failed open, the
    only line printed names the file, the exit status is 1 and no file
    changes. *)
Theorem unidentified_source_is_reported (w : World) (content : string) :
  pil_installed w = true ->
  fault w (Open src) = None ->
  cwd w !! src = Some (NotAnImage content) ->
  exit_status (run w) = 1 /\
  stdout (final (run w)) =
    ["Error: cannot identify image file 'app_icon.png'"] /\
  calls (final (run w)) = [(Open src, false)] /\
  fs (final (run w)) = cwd w.
Proof.
  intros Hpil Hf Hsrc.
  assert (Hd : decode w (cwd w) src =
               inl {| exn_cls := UnidentifiedImageError;
                      exn_str := "cannot identify image file 'app_icon.png'" |}).
  { unfold decode. by rewrite Hf, Hsrc. }
  destruct (run_ending w) as [|e0 ? Hopen| | | |]; try congruence.
  rewrite Hd in Hopen. injection Hopen as <-. done.
Qed.

Lemma unidentified_source_is_reported_witness :
  exit_status (run w_not_image) = 1 /\
  stdout (final (run w_not_image)) =
    ["Error: cannot identify image file 'app_icon.png'"] /\
  calls (final (run w_not_image)) = [(Open src, false)] /\
  fs (final (run w_not_image)) = cwd w_not_image.
Proof.
  apply (unidentified_source_is_reported w_not_image "not a picture");
    vm_compute; reflexivity.
Defined.

(** Whatever the mode of the source, the image a successful run leaves at
    the destination has the source's size and as many pixels as the source
    has. *)
Theorem size_and_pixel_count_are_kept (w : World) (fmt : format) (img : Image) :
  cwd w !! src = Some (ImageFile fmt img) ->
  exit_status (run w) = 0 ->
  exists out,
    fs (final (run w)) !! dst = Some (ImageFile PNG out) /\
    Image_size out = Image_size img /\
    length (Image_data out) = length (Image_data img).
Proof.
  intros Hsrc Hexit. exists (prepared w img).
  split; [by apply (successful_run_destination w fmt) |].
  split; [apply prepared_size |].
  unfold prepared. destruct (is_RGBA img); [done |].
  unfold to_RGBA. cbn. apply length_map.
Qed.

Lemma size_and_pixel_count_are_kept_witness :
  exists out,
    fs (final (run w_la)) !! dst = Some (ImageFile PNG out) /\
    Image_size out = (1, 1) /\
    length (Image_data out) = 1%nat.
Proof.
  apply (size_and_pixel_count_are_kept w_la PNG icon_la);
    vm_compute; reflexivity.
Defined.

